(** * ChatTextAreaAutocompleteTelemetry

    A shallow embedding of
    [src/services/ghost/chat-autocomplete/ChatTextAreaAutocompleteTelemetry.ts]
    and the properties its specification states about it.

    The class is a thin reporter: each public method builds an object
    literal from its parameters and from fields read out of the caller's
    context object, and hands it to the private [captureEvent], which
    forwards it to the telemetry service when one exists and then writes a
    line to the console.

    The embedding keeps what the claims are about:
    - JavaScript values with [undefined] as a value of its own, and objects
      as finite maps from property names to values, so that "key absent" and
      "key present holding undefined" are different objects;
    - a store of the caller's objects, passed to the methods by reference;
    - the effects of a call: the invocations received by the telemetry
      service, the console lines, and an exception that may leave the call. *)

From Stdlib Require Import PrimFloat.
From stdpp Require Import gmap strings list fin_maps.

#[local] Set Warnings "-clear-no-such-hyp".

Open Scope string_scope.
Open Scope list_scope.

(* ===================================================================== *)
(** ** JavaScript values, objects and the store *)
(* ===================================================================== *)

(** A JavaScript [number] is an IEEE 754 double.  The reporter never
    computes with numbers, it only carries them from a parameter to a
    property. *)
Abbreviation number := float (only parsing).

(** References into the store. *)
Abbreviation loc := positive (only parsing).

(** Values a property can hold.  An object-valued property holds a
    reference; everything else is a primitive. *)
Inductive JsValue : Type :=
  | JUndefined
  | JNull
  | JBool (b : bool)
  | JNumber (x : number)
  | JString (s : string)
  | JRef (l : loc).

(** An object: its own enumerable properties. *)
Abbreviation JsObject := (gmap string JsValue) (only parsing).

(** [typeof v] for the three types the specification names. *)
Definition is_string (v : JsValue) : bool :=
  match v with JString _ => true | _ => false end.
Definition is_number (v : JsValue) : bool :=
  match v with JNumber _ => true | _ => false end.
Definition is_boolean (v : JsValue) : bool :=
  match v with JBool _ => true | _ => false end.
Definition is_undefined (v : JsValue) : bool :=
  match v with JUndefined => true | _ => false end.

(** The property read [o.k] on an object: a missing key reads as
    [undefined]. *)
Definition read (o : JsObject) (k : string) : JsValue :=
  default JUndefined (o !! k).

(** An object literal [{ ...base, k1: v1, ..., kn: vn }]: the members are
    defined from left to right on top of the spread object, a later member
    replacing an earlier one of the same name. *)
Definition object_literal (base : JsObject) (members : list (string * JsValue))
  : JsObject :=
  foldl (fun o kv => <[kv.1 := kv.2]> o) base members.

(* ===================================================================== *)
(** ** The world a call runs in *)
(* ===================================================================== *)

(** The event names of [TelemetryEventName] (package [@roo-code/types])
    that this file uses. *)
Inductive TelemetryEventName : Type :=
  | CHAT_AUTOCOMPLETE_SUGGESTION_REQUESTED
  | CHAT_AUTOCOMPLETE_LLM_REQUEST_COMPLETED
  | CHAT_AUTOCOMPLETE_LLM_REQUEST_FAILED
  | CHAT_AUTOCOMPLETE_SUGGESTION_RETURNED
  | CHAT_AUTOCOMPLETE_SUGGESTION_FILTERED
  | CHAT_AUTOCOMPLETE_SUGGESTION_ACCEPTED
  | CHAT_AUTOCOMPLETE_SUGGESTION_DISMISSED.

(** One invocation [captureEvent(event, properties)] received by the
    telemetry service; [None] is the one-argument form
    [captureEvent(event)]. *)
Definition Invocation : Type := TelemetryEventName * option JsObject.

(** One [console.log(message, ...rest)]: the message and the object that
    follows it, if any. *)
Record LogLine : Type := mkLogLine {
  message : string;
  rest : option JsObject
}.

(** The telemetry service instance, seen from this component: for each
    invocation, whether its [captureEvent] returns ([None]) or throws
    ([Some e]).  It is handed the mapping and is taken to leave it, and the
    caller's store, as they are. *)
Definition Sink : Type := Invocation -> option JsValue.

Record World : Type := mkWorld {
  (** the caller's objects: contexts, property records, the reporter *)
  heap : gmap loc JsObject;
  (** [TelemetryService]'s singleton, [None] before it is created *)
  service : option Sink;
  (** every invocation of the service's [captureEvent], oldest first *)
  received : list Invocation;
  (** every console line, oldest first *)
  console : list LogLine
}.

(** How an evaluation ends. *)
Inductive Completion (A : Type) : Type :=
  | Normal (a : A)
  | Throw (e : JsValue).
Arguments Normal {A} a.
Arguments Throw {A} e.

(** Effectful code: a function of the world, ending normally or abruptly. *)
Definition Eff (A : Type) : Type := World -> Completion A * World.

#[export] Instance Eff_ret : MRet Eff := fun A a w => (Normal a, w).

#[export] Instance Eff_bind : MBind Eff := fun A B k c w =>
  match c w with
  | (Normal a, w') => k a w'
  | (Throw e, w') => (Throw e, w')
  end.

Definition TypeError : JsValue := JString "TypeError".

(** [o.k] where [o] is a reference.  A reference outside the store stands
    for an argument that is [undefined] or [null] (the parameter types
    exclude both); reading a property of it throws, as JavaScript does on
    [undefined.k].  Arguments that are numbers, strings or booleans are
    not represented. *)
Definition get (o : loc) (k : string) : Eff JsValue := fun w =>
  match heap w !! o with
  | Some obj => (Normal (read obj k), w)
  | None => (Throw TypeError, w)
  end.

(** [...o] inside an object literal: the own properties of [o]; spreading
    [undefined] or [null] contributes nothing. *)
Definition spread (o : loc) : Eff JsObject := fun w =>
  (Normal (default ∅ (heap w !! o)), w).

(** [console.log(message, properties)] and [console.log(message)]. *)
Definition console_log (msg : string) (properties : option JsObject) : Eff unit :=
  fun w =>
    (Normal tt,
     mkWorld (heap w) (service w) (received w)
             (console w ++ [mkLogLine msg properties])).

(** The singleton [TelemetryService] of [@roo-code/telemetry], declared
    outside this file, as far as the reporter uses it. *)
Module TelemetryService.

Definition NotInitialized : JsValue := JString "TelemetryService not initialized".

(** Modelled from the spec: [TelemetryService.hasInstance()], whose body
    is declared in another package.  Section 6: a test whether the sink
    exists, queryable at any time without side effects. *)
Definition hasInstance : Eff bool := fun w =>
  (Normal (match service w with Some _ => true | None => false end), w).

(** Modelled from the spec: [TelemetryService.instance.captureEvent], whose
    body is declared in another package.  Section 6: it accepts an event
    kind and an optional property mapping; section 7: a failure inside it
    is the sink's own and may reach the caller.  The invocation is
    recorded whether or not it fails.  Reaching for the instance when
    there is none is an error. *)
Definition instance_captureEvent (event : TelemetryEventName)
    (properties : option JsObject) : Eff unit := fun w =>
  match service w with
  | None => (Throw NotInitialized, w)
  | Some sink =>
      let w' := mkWorld (heap w) (service w)
                        (received w ++ [(event, properties)]) (console w) in
      match sink (event, properties) with
      | None => (Normal tt, w')
      | Some e => (Throw e, w')
      end
  end.

End TelemetryService.

(* ===================================================================== *)
(** ** The reporter *)
(* ===================================================================== *)

(** The [reason] parameter of [captureSuggestionFiltered], a union of
    string literals. *)
Inductive FilterReason : Type :=
  | empty_response
  | unwanted_pattern
  | too_short
  | model_not_loaded
  | no_credentials.

Definition FilterReason_string (r : FilterReason) : string :=
  match r with
  | empty_response => "empty_response"
  | unwanted_pattern => "unwanted_pattern"
  | too_short => "too_short"
  | model_not_loaded => "model_not_loaded"
  | no_credentials => "no_credentials"
  end.

(** The [dismissReason] parameter of [captureSuggestionDismissed]. *)
Inductive DismissReason : Type :=
  | escape
  | continued_typing
  | clicked_away
  | timeout.

Definition DismissReason_string (r : DismissReason) : string :=
  match r with
  | escape => "escape"
  | continued_typing => "continued_typing"
  | clicked_away => "clicked_away"
  | timeout => "timeout"
  end.

(** [new ChatTextAreaAutocompleteTelemetry()]: the constructor body is
    empty and the class declares no field, so the new object has no own
    property. *)
Definition constructor : Eff loc := fun w =>
  let this := fresh (dom (heap w)) in
  (Normal this,
   mkWorld (<[this := ∅]> (heap w)) (service w) (received w) (console w)).

(** For the examples, each event kind is printed by the name of its member. *)
Definition member_name (e : TelemetryEventName) : string :=
  match e with
  | CHAT_AUTOCOMPLETE_SUGGESTION_REQUESTED => "CHAT_AUTOCOMPLETE_SUGGESTION_REQUESTED"
  | CHAT_AUTOCOMPLETE_LLM_REQUEST_COMPLETED => "CHAT_AUTOCOMPLETE_LLM_REQUEST_COMPLETED"
  | CHAT_AUTOCOMPLETE_LLM_REQUEST_FAILED => "CHAT_AUTOCOMPLETE_LLM_REQUEST_FAILED"
  | CHAT_AUTOCOMPLETE_SUGGESTION_RETURNED => "CHAT_AUTOCOMPLETE_SUGGESTION_RETURNED"
  | CHAT_AUTOCOMPLETE_SUGGESTION_FILTERED => "CHAT_AUTOCOMPLETE_SUGGESTION_FILTERED"
  | CHAT_AUTOCOMPLETE_SUGGESTION_ACCEPTED => "CHAT_AUTOCOMPLETE_SUGGESTION_ACCEPTED"
  | CHAT_AUTOCOMPLETE_SUGGESTION_DISMISSED => "CHAT_AUTOCOMPLETE_SUGGESTION_DISMISSED"
  end.

Section Reporter.

(** The string each member of the enum [TelemetryEventName] stands for.
    The enum is declared in [@roo-code/types]; the reporter only
    interpolates the string into its console line. *)
Variable event_string : TelemetryEventName -> string.

Definition captureEvent (this : loc) (event : TelemetryEventName)
    (properties : option JsObject) : Eff unit :=
  present ← TelemetryService.hasInstance;
  if (present : bool) then
    match properties with
    | Some p =>
        TelemetryService.instance_captureEvent event (Some p);;
        console_log ("Chat Autocomplete Telemetry event: " +:+ event_string event)
                    (Some p)
    | None =>
        TelemetryService.instance_captureEvent event None;;
        console_log ("Chat Autocomplete Telemetry event: " +:+ event_string event)
                    None
    end
  else mret tt.

Definition captureSuggestionRequested (this : loc) (context : loc)
    (userTextLength : number) : Eff unit :=
  modelId ← get context "modelId";
  provider ← get context "provider";
  usedFim ← get context "usedFim";
  hasVisibleCodeContext ← get context "hasVisibleCodeContext";
  hasClipboardContext ← get context "hasClipboardContext";
  captureEvent this CHAT_AUTOCOMPLETE_SUGGESTION_REQUESTED
    (Some (object_literal ∅
      [ ("modelId", modelId);
        ("provider", provider);
        ("usedFim", usedFim);
        ("hasVisibleCodeContext", hasVisibleCodeContext);
        ("hasClipboardContext", hasClipboardContext);
        ("userTextLength", JNumber userTextLength) ])).

Definition captureLlmRequestCompleted (this : loc) (properties : loc)
    (context : loc) : Eff unit :=
  own ← spread properties;
  modelId ← get context "modelId";
  provider ← get context "provider";
  usedFim ← get context "usedFim";
  captureEvent this CHAT_AUTOCOMPLETE_LLM_REQUEST_COMPLETED
    (Some (object_literal own
      [ ("modelId", modelId);
        ("provider", provider);
        ("usedFim", usedFim) ])).

Definition captureLlmRequestFailed (this : loc) (properties : loc)
    (context : loc) : Eff unit :=
  own ← spread properties;
  modelId ← get context "modelId";
  provider ← get context "provider";
  usedFim ← get context "usedFim";
  captureEvent this CHAT_AUTOCOMPLETE_LLM_REQUEST_FAILED
    (Some (object_literal own
      [ ("modelId", modelId);
        ("provider", provider);
        ("usedFim", usedFim) ])).

Definition captureSuggestionReturned (this : loc) (context : loc)
    (suggestionLength : number) : Eff unit :=
  modelId ← get context "modelId";
  provider ← get context "provider";
  usedFim ← get context "usedFim";
  captureEvent this CHAT_AUTOCOMPLETE_SUGGESTION_RETURNED
    (Some (object_literal ∅
      [ ("modelId", modelId);
        ("provider", provider);
        ("usedFim", usedFim);
        ("suggestionLength", JNumber suggestionLength) ])).

Definition captureSuggestionFiltered (this : loc) (reason : FilterReason)
    (context : loc) : Eff unit :=
  modelId ← get context "modelId";
  provider ← get context "provider";
  usedFim ← get context "usedFim";
  captureEvent this CHAT_AUTOCOMPLETE_SUGGESTION_FILTERED
    (Some (object_literal ∅
      [ ("reason", JString (FilterReason_string reason));
        ("modelId", modelId);
        ("provider", provider);
        ("usedFim", usedFim) ])).

Definition captureSuggestionAccepted (this : loc) (suggestionLength : number)
    : Eff unit :=
  captureEvent this CHAT_AUTOCOMPLETE_SUGGESTION_ACCEPTED
    (Some (object_literal ∅ [ ("suggestionLength", JNumber suggestionLength) ])).

Definition captureSuggestionDismissed (this : loc) (dismissReason : DismissReason)
    : Eff unit :=
  captureEvent this CHAT_AUTOCOMPLETE_SUGGESTION_DISMISSED
    (Some (object_literal ∅
      [ ("dismissReason", JString (DismissReason_string dismissReason)) ])).

(** *** Calls on the public interface *)

(** One call of a public method with its arguments. *)
Inductive CaptureCall : Type :=
  | SuggestionRequested (context : loc) (userTextLength : number)
  | LlmRequestCompleted (properties : loc) (context : loc)
  | LlmRequestFailed (properties : loc) (context : loc)
  | SuggestionReturned (context : loc) (suggestionLength : number)
  | SuggestionFiltered (reason : FilterReason) (context : loc)
  | SuggestionAccepted (suggestionLength : number)
  | SuggestionDismissed (dismissReason : DismissReason).

Definition invoke (this : loc) (c : CaptureCall) : Eff unit :=
  match c with
  | SuggestionRequested context n => captureSuggestionRequested this context n
  | LlmRequestCompleted properties context =>
      captureLlmRequestCompleted this properties context
  | LlmRequestFailed properties context =>
      captureLlmRequestFailed this properties context
  | SuggestionReturned context n => captureSuggestionReturned this context n
  | SuggestionFiltered reason context => captureSuggestionFiltered this reason context
  | SuggestionAccepted n => captureSuggestionAccepted this n
  | SuggestionDismissed r => captureSuggestionDismissed this r
  end.

(** A caller making one call after the other, going on after a call that
    threw. *)
Definition invoke_all (this : loc) (cs : list CaptureCall) (w : World) : World :=
  foldl (fun w c => (invoke this c w).2) w cs.

(** The call [c] made in [w] reaches the service exactly once, with event
    [e] and mapping [m]. *)
Definition forwards (this : loc) (c : CaptureCall) (w : World)
    (e : TelemetryEventName) (m : JsObject) : Prop :=
  received (invoke this c w).2 = received w ++ [(e, Some m)].

(** *** What the specification documents for each operation *)

(** The object a reference stands for; a reference outside the store
    has no property. *)
Definition object_at (w : World) (l : loc) : JsObject :=
  default ∅ (heap w !! l).

(** The context argument of the operations that take one. *)
Definition context_of (c : CaptureCall) : option loc :=
  match c with
  | SuggestionRequested context _
  | LlmRequestCompleted _ context
  | LlmRequestFailed _ context
  | SuggestionReturned context _
  | SuggestionFiltered _ context => Some context
  | SuggestionAccepted _ | SuggestionDismissed _ => None
  end.

(** The argument a call reads properties of, its context, is an object
    of the store.  (The properties record is only spread.) *)
Definition inputs_allocated (w : World) (c : CaptureCall) : bool :=
  match context_of c with
  | Some context => bool_decide (is_Some (heap w !! context))
  | None => true
  end.

(** The event kind each operation reports, as the test suite pins it. *)
Definition documented_event (c : CaptureCall) : TelemetryEventName :=
  match c with
  | SuggestionRequested _ _ => CHAT_AUTOCOMPLETE_SUGGESTION_REQUESTED
  | LlmRequestCompleted _ _ => CHAT_AUTOCOMPLETE_LLM_REQUEST_COMPLETED
  | LlmRequestFailed _ _ => CHAT_AUTOCOMPLETE_LLM_REQUEST_FAILED
  | SuggestionReturned _ _ => CHAT_AUTOCOMPLETE_SUGGESTION_RETURNED
  | SuggestionFiltered _ _ => CHAT_AUTOCOMPLETE_SUGGESTION_FILTERED
  | SuggestionAccepted _ => CHAT_AUTOCOMPLETE_SUGGESTION_ACCEPTED
  | SuggestionDismissed _ => CHAT_AUTOCOMPLETE_SUGGESTION_DISMISSED
  end.

(** The fields every context-carrying event copies from the context. *)
Definition context_keys : gset string := {[ "modelId"; "provider"; "usedFim" ]}.


(** The column "Assembled properties" of the table in section 4.1. *)
Definition documented_keys (w : World) (c : CaptureCall) : gset string :=
  match c with
  | SuggestionRequested _ _ =>
      {[ "modelId"; "provider"; "usedFim"; "hasVisibleCodeContext";
         "hasClipboardContext"; "userTextLength" ]}
  | LlmRequestCompleted properties _ | LlmRequestFailed properties _ =>
      dom (object_at w properties) ∪ context_keys
  | SuggestionReturned _ _ =>
      {[ "modelId"; "provider"; "usedFim"; "suggestionLength" ]}
  | SuggestionFiltered _ _ =>
      {[ "reason"; "modelId"; "provider"; "usedFim" ]}
  | SuggestionAccepted _ => {[ "suggestionLength" ]}
  | SuggestionDismissed _ => {[ "dismissReason" ]}
  end.


(** The value the caller passed for a documented key: a parameter of the
    call, a field of the properties record, or a field of the context. *)
Definition passed_value (w : World) (c : CaptureCall) (k : string) : JsValue :=
  match c with
  | SuggestionRequested context userTextLength =>
      if decide (k = "userTextLength") then JNumber userTextLength
      else read (object_at w context) k
  | LlmRequestCompleted properties context
  | LlmRequestFailed properties context =>
      if decide (k ∈ context_keys) then read (object_at w context) k
      else read (object_at w properties) k
  | SuggestionReturned context suggestionLength =>
      if decide (k = "suggestionLength") then JNumber suggestionLength
      else read (object_at w context) k
  | SuggestionFiltered reason context =>
      if decide (k = "reason") then JString (FilterReason_string reason)
      else read (object_at w context) k
  | SuggestionAccepted suggestionLength => JNumber suggestionLength
  | SuggestionDismissed dismissReason =>
      JString (DismissReason_string dismissReason)
  end.

(** Two calls of the same method. *)
Definition same_operation (c1 c2 : CaptureCall) : bool :=
  match c1, c2 with
  | SuggestionRequested _ _, SuggestionRequested _ _
  | LlmRequestCompleted _ _, LlmRequestCompleted _ _
  | LlmRequestFailed _ _, LlmRequestFailed _ _
  | SuggestionReturned _ _, SuggestionReturned _ _
  | SuggestionFiltered _ _, SuggestionFiltered _ _
  | SuggestionAccepted _, SuggestionAccepted _
  | SuggestionDismissed _, SuggestionDismissed _ => true
  | _, _ => false
  end.

(** *** The declared parameter types, as predicates on objects *)

(** A field declared [k: T]. *)
Definition required (T : JsValue -> bool) (o : JsObject) (k : string) : bool :=
  match o !! k with Some v => T v | None => false end.

(** A field declared [k?: T]: absent, [undefined], or a [T]. *)
Definition optional (T : JsValue -> bool) (o : JsObject) (k : string) : bool :=
  match o !! k with Some v => is_undefined v || T v | None => true end.

(** [interface ChatAutocompleteContext]. *)
Definition ChatAutocompleteContext (o : JsObject) : bool :=
  optional is_string o "modelId"
  && optional is_string o "provider"
  && required is_boolean o "usedFim"
  && required is_boolean o "hasVisibleCodeContext"
  && required is_boolean o "hasClipboardContext".

(** [{ latencyMs: number; inputTokens?: number; outputTokens?: number }],
    with no field beyond the declared ones. *)
Definition LlmRequestCompletedProperties (o : JsObject) : bool :=
  required is_number o "latencyMs"
  && optional is_number o "inputTokens"
  && optional is_number o "outputTokens"
  && bool_decide (dom o ⊆ {[ "latencyMs"; "inputTokens"; "outputTokens" ]}).

(** [{ latencyMs: number; error: string }], with no field beyond the
    declared ones. *)
Definition LlmRequestFailedProperties (o : JsObject) : bool :=
  required is_number o "latencyMs"
  && required is_string o "error"
  && bool_decide (dom o ⊆ {[ "latencyMs"; "error" ]}).

Definition has_type (w : World) (l : loc) (T : JsObject -> bool) : bool :=
  match heap w !! l with Some o => T o | None => false end.

(** Every object argument of the call has its declared type. *)
Definition inputs_typed (w : World) (c : CaptureCall) : bool :=
  match c with
  | SuggestionRequested context _
  | SuggestionReturned context _
  | SuggestionFiltered _ context => has_type w context ChatAutocompleteContext
  | LlmRequestCompleted properties context =>
      has_type w properties LlmRequestCompletedProperties
      && has_type w context ChatAutocompleteContext
  | LlmRequestFailed properties context =>
      has_type w properties LlmRequestFailedProperties
      && has_type w context ChatAutocompleteContext
  | SuggestionAccepted _ | SuggestionDismissed _ => true
  end.


(** *** The objects of the test suite *)

Definition mockContext : JsObject :=
  object_literal ∅
    [ ("modelId", JString "test-model");
      ("provider", JString "test-provider");
      ("usedFim", JBool true);
      ("hasVisibleCodeContext", JBool true);
      ("hasClipboardContext", JBool false) ].

Definition minimalContext : JsObject :=
  object_literal ∅
    [ ("usedFim", JBool false);
      ("hasVisibleCodeContext", JBool false);
      ("hasClipboardContext", JBool false) ].

Definition metrics : JsObject :=
  object_literal ∅
    [ ("latencyMs", JNumber 150);
      ("inputTokens", JNumber 100);
      ("outputTokens", JNumber 50) ].

Definition latency_only : JsObject :=
  object_literal ∅ [ ("latencyMs", JNumber 150) ].

Definition failure : JsObject :=
  object_literal ∅
    [ ("latencyMs", JNumber 100);
      ("error", JString "Network timeout") ].

(** A record that, beyond its declared fields, carries fields named like
    the context's. *)
Definition overlapping : JsObject :=
  object_literal ∅
    [ ("latencyMs", JNumber 100);
      ("error", JString "Network timeout");
      ("modelId", JString "other-model");
      ("provider", JString "other-provider");
      ("usedFim", JBool false) ].

(** The store of the tests: the reporter at 1, then the objects above. *)
Definition test_heap : gmap loc JsObject :=
  list_to_map
    [ (1%positive, ∅); (2%positive, mockContext); (3%positive, minimalContext);
      (4%positive, metrics); (5%positive, latency_only); (6%positive, failure);
      (7%positive, overlapping) ].

(** The mocked service of the tests: it records and returns. *)
Definition mock_sink : Sink := fun _ => None.

(** A service whose [captureEvent] throws. *)
Definition failing_sink : Sink := fun _ => Some (JString "sink failure").

Definition world_with_service : World := mkWorld test_heap (Some mock_sink) [] [].
Definition world_without_service : World := mkWorld test_heap None [] [].
Definition world_with_failing_service : World :=
  mkWorld test_heap (Some failing_sink) [] [].

(** A console that other code has already written to. *)
Definition earlier_lines : list LogLine := [ mkLogLine "extension activated" None ].

(** *** What a method reads, and the type each key is declared with *)

(** The properties record of the operations that take one. *)
Definition properties_of (c : CaptureCall) : option loc :=
  match c with
  | LlmRequestCompleted properties _
  | LlmRequestFailed properties _ => Some properties
  | _ => None
  end.

(** The two flags of the context that only [captureSuggestionRequested]
    copies. *)
Definition flag_keys : gset string :=
  {[ "hasVisibleCodeContext"; "hasClipboardContext" ]}.

(** The fields of its context a method reads. *)
Definition context_fields (c : CaptureCall) : gset string :=
  match c with
  | SuggestionRequested _ _ => context_keys ∪ flag_keys
  | LlmRequestCompleted _ _
  | LlmRequestFailed _ _
  | SuggestionReturned _ _
  | SuggestionFiltered _ _ => context_keys
  | SuggestionAccepted _ | SuggestionDismissed _ => ∅
  end.

(** The type the source declares for each property name: by the interface
    [ChatAutocompleteContext], by the two record types, and by the
    parameters [userTextLength], [suggestionLength], [reason] and
    [dismissReason]. *)
Definition declared_type (k : string) (v : JsValue) : bool :=
  if decide (k ∈ ({[ "usedFim"; "hasVisibleCodeContext"; "hasClipboardContext" ]}
                  : gset string))
  then is_boolean v
  else if decide (k ∈ ({[ "modelId"; "provider" ]} : gset string))
  then is_undefined v || is_string v
  else if decide (k ∈ ({[ "latencyMs"; "userTextLength"; "suggestionLength" ]}
                       : gset string))
  then is_number v
  else if decide (k ∈ ({[ "inputTokens"; "outputTokens" ]} : gset string))
  then is_undefined v || is_number v
  else if decide (k ∈ ({[ "error"; "reason"; "dismissReason" ]} : gset string))
  then is_string v
  else false.

(** Two calls of one method with the same explicit argument: the same
    length, the same reason.  (The request methods take theirs in a
    record.) *)
Definition same_arguments (c1 c2 : CaptureCall) : Prop :=
  match c1, c2 with
  | SuggestionRequested _ n1, SuggestionRequested _ n2
  | SuggestionReturned _ n1, SuggestionReturned _ n2
  | SuggestionAccepted n1, SuggestionAccepted n2 => n1 = n2
  | SuggestionFiltered r1 _, SuggestionFiltered r2 _ => r1 = r2
  | SuggestionDismissed r1, SuggestionDismissed r2 => r1 = r2
  | LlmRequestCompleted _ _, LlmRequestCompleted _ _
  | LlmRequestFailed _ _, LlmRequestFailed _ _ => True
  | _, _ => False
  end.

(** A context with a field the interface does not declare, and with the
    flags of [mockContext] flipped. *)
Definition extendedContext : JsObject :=
  object_literal ∅
    [ ("modelId", JString "test-model");
      ("provider", JString "test-provider");
      ("usedFim", JBool true);
      ("hasVisibleCodeContext", JBool false);
      ("hasClipboardContext", JBool true);
      ("sessionId", JString "s-1") ].

(** The store of the tests with that context in place of [mockContext]. *)
Definition world_with_extended_context : World :=
  mkWorld (<[2%positive := extendedContext]> test_heap) (Some mock_sink) [] [].

(** A service that refuses one kind of event. *)
Definition picky_sink : Sink := fun i =>
  match i.1 with
  | CHAT_AUTOCOMPLETE_LLM_REQUEST_FAILED => Some (JString "sink failure")
  | _ => None
  end.

Definition world_with_picky_service : World :=
  mkWorld test_heap (Some picky_sink) [] [].

(* =================================================================== *)
(** ** Properties *)
(* =================================================================== *)

(** *** The dispatch routine, case by case *)

Lemma captureEvent_without_service this e p w :
  service w = None -> captureEvent this e p w = (Normal tt, w).
Proof.
  intros Hs. unfold captureEvent, mbind, Eff_bind, TelemetryService.hasInstance.
  rewrite Hs. reflexivity.
Qed.

Lemma captureEvent_with_service this e p w sink :
  service w = Some sink ->
  captureEvent this e p w =
    match sink (e, p) with
    | None =>
        (Normal tt,
         mkWorld (heap w) (service w) (received w ++ [(e, p)])
           (console w
            ++ [mkLogLine ("Chat Autocomplete Telemetry event: " +:+ event_string e) p]))
    | Some err =>
        (Throw err,
         mkWorld (heap w) (service w) (received w ++ [(e, p)]) (console w))
    end.
Proof.
  intros Hs.
  unfold captureEvent, mbind, Eff_bind, TelemetryService.hasInstance,
    TelemetryService.instance_captureEvent, console_log.
  destruct w as [h s r c]; simpl in *; subst s.
  destruct p; simpl; destruct (sink _); reflexivity.
Qed.

Lemma captureEvent_result this e p w :
  (captureEvent this e p w).1 =
    match service w with
    | None => Normal tt
    | Some sink =>
        match sink (e, p) with
        | None => Normal tt
        | Some err => Throw err
        end
    end.
Proof.
  destruct (service w) as [sink|] eqn:Hs.
  - rewrite (captureEvent_with_service _ _ _ _ _ Hs).
    destruct (sink _); reflexivity.
  - rewrite (captureEvent_without_service _ _ _ _ Hs). reflexivity.
Qed.

Lemma get_allocated o k w obj :
  heap w !! o = Some obj -> get o k w = (Normal (read obj k), w).
Proof. intros H. unfold get. rewrite H. reflexivity. Qed.

Lemma bind_normal {A B} (c : Eff A) (k : A -> Eff B) w a w' :
  c w = (Normal a, w') -> (c ≫= k) w = k a w'.
Proof. intros H. unfold mbind, Eff_bind. rewrite H. reflexivity. Qed.

Lemma inputs_allocated_context w c context :
  inputs_allocated w c = true -> context_of c = Some context ->
  exists o, heap w !! context = Some o.
Proof.
  unfold inputs_allocated. intros Ha Hc. rewrite Hc in Ha.
  apply bool_decide_eq_true in Ha. exact Ha.
Qed.

Lemma read_lookup (o : JsObject) k : k ∈ dom o -> o !! k = Some (read o k).
Proof.
  intros [v Hv]%elem_of_dom. unfold read. rewrite Hv. reflexivity.
Qed.

(** Unfold the method behind a call and run its property reads. *)
Ltac run_method Hctx :=
  unfold invoke, captureSuggestionRequested, captureLlmRequestCompleted,
    captureLlmRequestFailed, captureSuggestionReturned,
    captureSuggestionFiltered, captureSuggestionAccepted,
    captureSuggestionDismissed;
  unfold spread;
  repeat (first [ erewrite (bind_normal (get _ _)) by (apply get_allocated, Hctx)
                | erewrite bind_normal by reflexivity ]).

(** Every method evaluates its object literal and passes it, with its
    own event kind, to the dispatch routine; the literal has the keys
    the table documents, each holding what the caller passed. *)
Lemma invoke_dispatches this c w :
  inputs_allocated w c = true ->
  exists m : JsObject,
    invoke this c w = captureEvent this (documented_event c) (Some m) w
    /\ dom m = documented_keys w c
    /\ forall k, k ∈ documented_keys w c -> m !! k = Some (passed_value w c k).
Proof.
  intros Ha.
  destruct (context_of c) as [context|] eqn:Hc.
  - destruct (inputs_allocated_context w c context Ha Hc) as [o Ho].
    destruct c; simpl in Hc; simplify_eq; run_method Ho;
      (eexists; split; [reflexivity|]);
      unfold object_literal, documented_keys, passed_value, object_at, context_keys;
      simpl; rewrite ?Ho; simpl.
    all: split; [rewrite ?dom_insert_L, ?dom_empty_L; set_solver|].
    all: intros k Hk; case_decide as Hd.
    all: try (set_unfold in Hk; destruct_or?; subst k; try done; reflexivity).
    all: try (set_unfold in Hd; destruct_or?; subst k; by simplify_map_eq).
    all: rewrite !lookup_insert_ne by set_solver; apply read_lookup; set_solver.
  - destruct c; simpl in Hc; simplify_eq; run_method Ha;
      (eexists; split; [reflexivity|]);
      unfold object_literal, documented_keys, passed_value; simpl;
      (split; [rewrite dom_insert_L, dom_empty_L; set_solver|]);
      intros k ->%elem_of_singleton; apply lookup_insert_eq.
Qed.

(** A call whose context is undefined or null fails on its first property
    read, before anything is dispatched. *)
Lemma invoke_unallocated this c w :
  inputs_allocated w c = false -> invoke this c w = (Throw TypeError, w).
Proof.
  unfold inputs_allocated. intros Ha.
  destruct c; simpl in Ha; try discriminate;
    apply bool_decide_eq_false in Ha;
    apply eq_None_not_Some in Ha;
    unfold invoke, captureSuggestionRequested, captureLlmRequestCompleted,
      captureLlmRequestFailed, captureSuggestionReturned,
      captureSuggestionFiltered, mbind, Eff_bind, spread, get;
    rewrite Ha; reflexivity.
Qed.

(** Without a service, a dispatched call changes nothing. *)
Lemma invoke_without_service this c w :
  service w = None -> inputs_allocated w c = true ->
  invoke this c w = (Normal tt, w).
Proof.
  intros Hs Ha.
  destruct (invoke_dispatches this c w Ha) as (m & Hrun & _).
  rewrite Hrun. apply captureEvent_without_service, Hs.
Qed.

(** With a service, a dispatched call reaches it exactly once. *)
Lemma invoke_forwards this c w sink :
  service w = Some sink -> inputs_allocated w c = true ->
  exists m : JsObject,
    invoke this c w = captureEvent this (documented_event c) (Some m) w
    /\ forwards this c w (documented_event c) m
    /\ dom m = documented_keys w c
    /\ forall k, k ∈ documented_keys w c -> m !! k = Some (passed_value w c k).
Proof.
  intros Hs Ha.
  destruct (invoke_dispatches this c w Ha) as (m & Hrun & Hdom & Hval).
  exists m. split; [exact Hrun|]. split; [|split; assumption].
  unfold forwards. rewrite Hrun, (captureEvent_with_service _ _ _ _ _ Hs).
  destruct (sink _); reflexivity.
Qed.

(** Conversely, whatever a call forwards is the documented event with
    the literal of the method. *)
Lemma forwards_inv this c w e m :
  forwards this c w e m ->
  exists sink,
    service w = Some sink
    /\ inputs_allocated w c = true
    /\ invoke this c w = captureEvent this e (Some m) w
    /\ e = documented_event c
    /\ dom m = documented_keys w c
    /\ forall k, k ∈ documented_keys w c -> m !! k = Some (passed_value w c k).
Proof.
  unfold forwards. intros Hf.
  assert (Hnil : forall (l : list Invocation) x, l <> l ++ [x]).
  { intros l x Hl. apply (f_equal length) in Hl.
    rewrite length_app in Hl. simpl in Hl. lia. }
  destruct (inputs_allocated w c) eqn:Ha.
  - destruct (service w) as [sink|] eqn:Hs.
    + destruct (invoke_forwards this c w sink Hs Ha) as (m0 & Hrun & Hf0 & Hdom & Hval).
      unfold forwards in Hf0. rewrite Hf0 in Hf.
      apply app_inj_tail in Hf as [_ Heq]. simplify_eq.
      exists sink. repeat split; assumption.
    + destruct (invoke_dispatches this c w Ha) as (m0 & Hrun & _).
      rewrite Hrun, (captureEvent_without_service _ _ _ _ Hs) in Hf.
      simpl in Hf. exfalso. exact (Hnil _ _ Hf).
  - rewrite (invoke_unallocated this c w Ha) in Hf. simpl in Hf.
    exfalso. exact (Hnil _ _ Hf).
Qed.

(** *** Claims *)

(** C1. For each of the seven public capture operations and every input,
    when the telemetry service exists, its [captureEvent] is invoked
    exactly once, with the event kind documented for the operation and a
    mapping whose keys are exactly the documented ones, each holding the
    value the caller passed (or the value read from the context). *)
Theorem capture_forwards_documented_event this c w sink :
  service w = Some sink -> inputs_allocated w c = true ->
  exists m : JsObject,
    received (invoke this c w).2 = received w ++ [(documented_event c, Some m)]
    /\ dom m = documented_keys w c
    /\ forall k, k ∈ documented_keys w c -> m !! k = Some (passed_value w c k).
Proof.
  intros Hs Ha.
  destruct (invoke_forwards this c w sink Hs Ha) as (m & _ & Hf & Hdom & Hval).
  exists m. auto.
Qed.

(** C2. For every public capture operation and every input, when the
    telemetry service does not exist, the call returns normally and
    leaves the world as it was: the service's [captureEvent] is not
    invoked, nothing is logged and nothing is queued. *)
Theorem capture_without_service_is_noop this c w :
  service w = None -> inputs_allocated w c = true ->
  invoke this c w = (Normal tt, w).
Proof.
  apply invoke_without_service.
Qed.

(** C3, as the code has it.  The dispatch routine returns normally when
    there is no service, and then does nothing at all, and when the
    service's [captureEvent] returns.  An exception thrown by the
    service's [captureEvent] is not caught: it leaves the routine, the
    service having received the invocation, and no console line is
    written. *)
Theorem captureEvent_completion this e p w :
  match service w with
  | None => captureEvent this e p w = (Normal tt, w)
  | Some sink =>
      match sink (e, p) with
      | None => (captureEvent this e p w).1 = Normal tt
      | Some err =>
          (captureEvent this e p w).1 = Throw err
          /\ received (captureEvent this e p w).2 = received w ++ [(e, p)]
          /\ console (captureEvent this e p w).2 = console w
      end
  end.
Proof.
  destruct (service w) as [sink|] eqn:Hs.
  - rewrite (captureEvent_with_service _ _ _ _ _ Hs).
    destruct (sink _); simpl; auto.
  - apply captureEvent_without_service, Hs.
Qed.

(** C4. For every context, [captureLlmRequestCompleted] called with a
    record that holds only [latencyMs] forwards a mapping whose keys are
    exactly latencyMs, modelId, provider and usedFim: the optional
    fields absent from the record are absent from the mapping. *)
Theorem completed_latency_only_keys this w sink properties context latencyMs :
  service w = Some sink ->
  heap w !! properties = Some {[ "latencyMs" := JNumber latencyMs ]} ->
  is_Some (heap w !! context) ->
  exists m : JsObject,
    forwards this (LlmRequestCompleted properties context) w
      CHAT_AUTOCOMPLETE_LLM_REQUEST_COMPLETED m
    /\ dom m = {[ "latencyMs"; "modelId"; "provider"; "usedFim" ]}
    /\ m !! "inputTokens" = None
    /\ m !! "outputTokens" = None.
Proof.
  intros Hs Hp Hc.
  assert (Ha : inputs_allocated w (LlmRequestCompleted properties context) = true).
  { unfold inputs_allocated. simpl. apply bool_decide_eq_true. exact Hc. }
  destruct (invoke_forwards this _ w sink Hs Ha) as (m & _ & Hf & Hdom & _).
  exists m. split; [exact Hf|].
  assert (Hd : dom m = {[ "latencyMs"; "modelId"; "provider"; "usedFim" ]}).
  { rewrite Hdom. unfold documented_keys, object_at, context_keys.
    rewrite Hp. simpl. rewrite dom_singleton_L. set_solver. }
  split; [exact Hd|].
  split; apply not_elem_of_dom; rewrite Hd; set_solver.
Qed.

(** C5. For every operation that copies context fields, when the
    context's [modelId] or [provider] is undefined (omitted, or present
    holding undefined), the forwarded mapping still has that key, holding
    undefined: it is neither left out nor replaced by a default. *)
Theorem undefined_context_fields_pass_through this c w sink context o k :
  service w = Some sink ->
  context_of c = Some context -> heap w !! context = Some o ->
  k = "modelId" \/ k = "provider" ->
  o !! k = None \/ o !! k = Some JUndefined ->
  exists m : JsObject,
    forwards this c w (documented_event c) m /\ m !! k = Some JUndefined.
Proof.
  intros Hs Hc Ho Hk Hu.
  assert (Ha : inputs_allocated w c = true).
  { unfold inputs_allocated. rewrite Hc, Ho. apply bool_decide_eq_true. eauto. }
  destruct (invoke_forwards this c w sink Hs Ha) as (m & _ & Hf & _ & Hval).
  exists m. split; [exact Hf|].
  assert (Hr : read o k = JUndefined).
  { unfold read. destruct Hu as [-> | ->]; reflexivity. }
  rewrite <- Hr.
  destruct c; simpl in Hc; simplify_eq;
    destruct Hk as [-> | ->];
    (rewrite Hval; [| unfold documented_keys, context_keys; set_solver]);
    unfold passed_value, object_at, context_keys; rewrite Ho; simpl;
    repeat case_decide; try done; set_solver.
Qed.
(** C6. For every suggestion length and every dismiss reason, the
    mappings forwarded by [captureSuggestionAccepted] and
    [captureSuggestionDismissed] hold none of the context keys modelId,
    provider, usedFim; and [captureSuggestionDismissed("timeout")]
    forwards exactly [{dismissReason: "timeout"}]. *)
Theorem terminal_events_omit_context this w sink :
  service w = Some sink ->
  (forall suggestionLength, exists m : JsObject,
      forwards this (SuggestionAccepted suggestionLength) w
        CHAT_AUTOCOMPLETE_SUGGESTION_ACCEPTED m
      /\ forall k, k ∈ context_keys -> m !! k = None)
  /\ (forall dismissReason, exists m : JsObject,
      forwards this (SuggestionDismissed dismissReason) w
        CHAT_AUTOCOMPLETE_SUGGESTION_DISMISSED m
      /\ forall k, k ∈ context_keys -> m !! k = None)
  /\ forwards this (SuggestionDismissed timeout) w
       CHAT_AUTOCOMPLETE_SUGGESTION_DISMISSED
       {[ "dismissReason" := JString "timeout" ]}.
Proof.
  intros Hs.
  assert (Hnone : forall c, context_of c = None -> exists m : JsObject,
             forwards this c w (documented_event c) m
             /\ forall k, k ∈ context_keys -> m !! k = None).
  { intros c Hc.
    assert (Ha : inputs_allocated w c = true)
      by (unfold inputs_allocated; rewrite Hc; reflexivity).
    destruct (invoke_forwards this c w sink Hs Ha) as (m & _ & Hf & Hdom & _).
    exists m. split; [exact Hf|].
    intros k Hk. apply not_elem_of_dom. rewrite Hdom.
    destruct c; simpl in Hc; try discriminate;
      unfold documented_keys, context_keys in *; set_solver. }
  split; [|split].
  - intros n. apply (Hnone (SuggestionAccepted n)). reflexivity.
  - intros r. apply (Hnone (SuggestionDismissed r)). reflexivity.
  - unfold forwards, invoke, captureSuggestionDismissed.
    rewrite (captureEvent_with_service _ _ _ _ _ Hs).
    destruct (sink _); reflexivity.
Qed.

(** C10. In [captureLlmRequestCompleted] and [captureLlmRequestFailed]
    the context fields are written after the record is spread: whatever
    the record holds under modelId, provider or usedFim, the forwarded
    mapping holds the context's values for those three keys. *)
Theorem context_overrides_properties this w sink properties context own o c :
  service w = Some sink ->
  heap w !! properties = Some own -> heap w !! context = Some o ->
  c = LlmRequestCompleted properties context
  \/ c = LlmRequestFailed properties context ->
  exists m : JsObject,
    forwards this c w (documented_event c) m
    /\ (forall k, k ∈ context_keys -> m !! k = Some (read o k))
    /\ (forall k, k ∉ context_keys -> m !! k = own !! k).
Proof.
  intros Hs Hp Ho Hc.
  assert (Ha : inputs_allocated w c = true).
  { unfold inputs_allocated.
    destruct Hc as [-> | ->]; simpl; rewrite Ho; apply bool_decide_eq_true; eauto. }
  destruct (invoke_forwards this c w sink Hs Ha) as (m & _ & Hf & Hdom & Hval).
  exists m. split; [exact Hf|].
  assert (Hkeys : documented_keys w c = dom own ∪ context_keys).
  { destruct Hc as [-> | ->]; unfold documented_keys, object_at;
      rewrite Hp; reflexivity. }
  assert (Hpass : forall k, passed_value w c k
                    = if decide (k ∈ context_keys) then read o k else read own k).
  { intros k. destruct Hc as [-> | ->]; unfold passed_value, object_at;
      rewrite Hp, Ho; reflexivity. }
  split.
  - intros k Hk. rewrite Hval by (rewrite Hkeys; set_solver).
    rewrite Hpass. case_decide; done.
  - intros k Hk. destruct (own !! k) as [v|] eqn:Hv.
    + rewrite Hval by (rewrite Hkeys; apply elem_of_union_l, elem_of_dom; eauto).
      rewrite Hpass. case_decide; [done|]. unfold read. rewrite Hv. reflexivity.
    + apply not_elem_of_dom. rewrite Hdom, Hkeys.
      apply not_elem_of_dom in Hv. set_solver.
Qed.

(** C8. Every capture operation writes exactly one console line when the
    service exists and the forward succeeds, the message
    [Chat Autocomplete Telemetry event: <eventKind>] with the forwarded
    mapping after it; it writes none when there is no service.  (Nor does
    it write one when the service's [captureEvent] throws.  The last part
    is the dispatch routine itself, for properties present or not.) *)
Theorem one_log_line_per_forward this c w :
  (service w = None -> console (invoke this c w).2 = console w)
  /\ (forall sink e m,
        service w = Some sink -> forwards this c w e m ->
        sink (e, Some m) = None ->
        console (invoke this c w).2 =
          console w
          ++ [mkLogLine ("Chat Autocomplete Telemetry event: " +:+ event_string e)
                        (Some m)])
  /\ (forall sink e m,
        service w = Some sink -> forwards this c w e m ->
        is_Some (sink (e, Some m)) ->
        console (invoke this c w).2 = console w)
  /\ (forall sink e p,
        service w = Some sink -> sink (e, p) = None ->
        console (captureEvent this e p w).2 =
          console w
          ++ [mkLogLine ("Chat Autocomplete Telemetry event: " +:+ event_string e) p]).
Proof.
  split; [|split; [|split]].
  - intros Hs. destruct (inputs_allocated w c) eqn:Ha.
    + rewrite (invoke_without_service this c w Hs Ha). reflexivity.
    + rewrite (invoke_unallocated this c w Ha). reflexivity.
  - intros sink e m Hs Hf Hok.
    destruct (forwards_inv this c w e m Hf) as (sink' & Hs' & _ & Hrun & _).
    rewrite Hrun, (captureEvent_with_service _ _ _ _ _ Hs), Hok. reflexivity.
  - intros sink e m Hs Hf [err Herr].
    destruct (forwards_inv this c w e m Hf) as (sink' & Hs' & _ & Hrun & _).
    rewrite Hrun, (captureEvent_with_service _ _ _ _ _ Hs), Herr. reflexivity.
  - intros sink e p Hs Hok.
    rewrite (captureEvent_with_service _ _ _ _ _ Hs), Hok. reflexivity.
Qed.
(** *** Typed inputs *)




Ltac split_andb :=
  repeat match goal with
         | H : _ && _ = true |- _ => apply andb_true_iff in H as [? ?]
         | H : bool_decide _ = true |- _ => apply bool_decide_eq_true in H
         end.




Lemma has_type_inv w l T :
  has_type w l T = true -> exists o, heap w !! l = Some o /\ T o = true.
Proof.
  unfold has_type. destruct (heap w !! l) as [o|]; [eauto | discriminate].
Qed.

Lemma inputs_typed_allocated w c :
  inputs_typed w c = true -> inputs_allocated w c = true.
Proof.
  unfold inputs_typed, inputs_allocated. intros Ht.
  destruct c; simpl; try reflexivity; split_andb;
    repeat match goal with
           | H : has_type w _ _ = true |- _ =>
               apply has_type_inv in H as (? & ? & _)
           end;
    apply bool_decide_eq_true; unfold is_Some; eauto.
Qed.







(** *** What a call leaves alone *)

Lemma captureEvent_frame this e p w :
  heap (captureEvent this e p w).2 = heap w
  /\ service (captureEvent this e p w).2 = service w.
Proof.
  destruct (service w) as [sink|] eqn:Hs.
  - rewrite (captureEvent_with_service _ _ _ _ _ Hs).
    destruct (sink _); simpl; auto.
  - rewrite (captureEvent_without_service _ _ _ _ Hs). auto.
Qed.

Lemma invoke_frame this c w :
  heap (invoke this c w).2 = heap w
  /\ service (invoke this c w).2 = service w.
Proof.
  destruct (inputs_allocated w c) eqn:Ha.
  - destruct (invoke_dispatches this c w Ha) as (m & -> & _).
    apply captureEvent_frame.
  - rewrite (invoke_unallocated this c w Ha). auto.
Qed.

Lemma invoke_all_frame this cs : forall w,
  heap (invoke_all this cs w) = heap w
  /\ service (invoke_all this cs w) = service w.
Proof.
  induction cs as [|c cs IH]; intros w; simpl; [auto|].
  destruct (IH (invoke this c w).2) as [Hh Hs].
  destruct (invoke_frame this c w) as [Hh' Hs'].
  unfold invoke_all in *. simpl. split; congruence.
Qed.

(** What is dispatched depends on the store only. *)
Lemma documented_heap w1 w2 c :
  heap w1 = heap w2 ->
  inputs_allocated w1 c = inputs_allocated w2 c
  /\ documented_keys w1 c = documented_keys w2 c
  /\ forall k, passed_value w1 c k = passed_value w2 c k.
Proof.
  intros Hh.
  unfold inputs_allocated, documented_keys, passed_value, object_at.
  rewrite Hh. auto.
Qed.

Lemma mapping_unique (m1 m2 : JsObject) (K : gset string) (f : string -> JsValue) :
  dom m1 = K -> dom m2 = K ->
  (forall k, k ∈ K -> m1 !! k = Some (f k)) ->
  (forall k, k ∈ K -> m2 !! k = Some (f k)) ->
  m1 = m2.
Proof.
  intros Hd1 Hd2 Hv1 Hv2. apply map_eq. intros k.
  destruct (decide (k ∈ K)) as [Hk | Hk].
  - rewrite Hv1, Hv2 by assumption. reflexivity.
  - assert (H1 : m1 !! k = None) by (apply not_elem_of_dom; rewrite Hd1; exact Hk).
    assert (H2 : m2 !! k = None) by (apply not_elem_of_dom; rewrite Hd2; exact Hk).
    congruence.
Qed.

Lemma invoke_deterministic this c w1 w2 :
  heap w1 = heap w2 -> service w1 = service w2 ->
  (invoke this c w1).1 = (invoke this c w2).1
  /\ forall e m, forwards this c w1 e m -> forwards this c w2 e m.
Proof.
  intros Hh Hs.
  destruct (documented_heap w1 w2 c Hh) as (Ha & Hk & Hp).
  destruct (inputs_allocated w1 c) eqn:Ha1; symmetry in Ha.
  - destruct (invoke_dispatches this c w1 Ha1) as (m1 & Hrun1 & Hd1 & Hv1).
    destruct (invoke_dispatches this c w2 Ha) as (m2 & Hrun2 & Hd2 & Hv2).
    assert (m1 = m2) as <-.
    { apply (mapping_unique m1 m2 (documented_keys w1 c) (passed_value w1 c));
        try assumption; [congruence|].
      intros k Hk2. rewrite Hp. apply Hv2. rewrite <- Hk. exact Hk2. }
    split.
    + rewrite Hrun1, Hrun2, !captureEvent_result, Hs. reflexivity.
    + intros e m Hf.
      destruct (forwards_inv this c w1 e m Hf) as (sink & Hs1 & _ & Hrun & -> & _).
      rewrite Hrun1 in Hrun. unfold forwards in *.
      rewrite Hrun1 in Hf. rewrite (captureEvent_with_service _ _ _ _ _ Hs1) in Hf.
      rewrite Hs in Hs1.
      rewrite Hrun2, (captureEvent_with_service _ _ _ _ _ Hs1).
      destruct (sink _); simpl in *; apply app_inj_tail in Hf as [_ Hf];
        rewrite Hf; reflexivity.
  - split.
    + rewrite (invoke_unallocated this c w1 Ha1), (invoke_unallocated this c w2 Ha).
      reflexivity.
    + intros e m Hf.
      destruct (forwards_inv this c w1 e m Hf) as (_ & _ & Ha' & _). congruence.
Qed.

(** C9. No capture operation modifies the caller's context or the
    reporter: the store is the same after every call and after every
    sequence of calls, so the context read by a call is identical before
    and after it and the reporter, created without fields, keeps none;
    and two calls with the same arguments on the same store and service
    complete alike and forward the same event. *)
Theorem calls_only_read :
  (forall this c w, heap (invoke this c w).2 = heap w)
  /\ (forall this cs w, heap (invoke_all this cs w) = heap w)
  /\ (forall cs w this w0,
        constructor w = (Normal this, w0) ->
        heap w0 !! this = Some ∅
        /\ heap (invoke_all this cs w0) !! this = Some ∅)
  /\ (forall this c w1 w2,
        heap w1 = heap w2 -> service w1 = service w2 ->
        (invoke this c w1).1 = (invoke this c w2).1
        /\ forall e m, forwards this c w1 e m -> forwards this c w2 e m).
Proof.
  split; [|split; [|split]].
  - intros this c w. apply invoke_frame.
  - intros this cs w. apply invoke_all_frame.
  - intros cs w this w0 Hnew. unfold constructor in Hnew.
    injection Hnew as <- <-.
    destruct (invoke_all_frame (fresh (dom (heap w))) cs
                (mkWorld (<[fresh (dom (heap w)) := ∅]> (heap w))
                         (service w) (received w) (console w))) as [-> _].
    simpl. rewrite lookup_insert_eq. auto.
  - intros this c w1 w2. apply invoke_deterministic.
Qed.
(* =================================================================== *)
(** ** Further properties of the reporter *)
(* =================================================================== *)

(** *** One call, in full *)

(** The three ways a call can go. *)
Lemma invoke_outcome this c w :
  (inputs_allocated w c = false /\ invoke this c w = (Throw TypeError, w))
  \/ (inputs_allocated w c = true /\ service w = None
      /\ invoke this c w = (Normal tt, w))
  \/ (exists sink (m : JsObject),
        inputs_allocated w c = true /\ service w = Some sink
        /\ dom m = documented_keys w c
        /\ (forall k, k ∈ documented_keys w c -> m !! k = Some (passed_value w c k))
        /\ invoke this c w =
             match sink (documented_event c, Some m) with
             | None =>
                 (Normal tt,
                  mkWorld (heap w) (service w)
                    (received w ++ [(documented_event c, Some m)])
                    (console w
                     ++ [mkLogLine ("Chat Autocomplete Telemetry event: "
                                    +:+ event_string (documented_event c))
                                   (Some m)]))
             | Some err =>
                 (Throw err,
                  mkWorld (heap w) (service w)
                    (received w ++ [(documented_event c, Some m)]) (console w))
             end).
Proof.
  destruct (inputs_allocated w c) eqn:Ha.
  - destruct (service w) as [sink|] eqn:Hs.
    + right. right.
      destruct (invoke_dispatches this c w Ha) as (m & Hrun & Hdom & Hval).
      exists sink, m. repeat (split; [assumption || reflexivity|]).
      rewrite Hrun, (captureEvent_with_service _ _ _ _ _ Hs), Hs. reflexivity.
    + right. left. repeat split. apply invoke_without_service; assumption.
  - left. split; [reflexivity|]. apply invoke_unallocated, Ha.
Qed.

(** What one call adds to the two histories. *)
Lemma invoke_step this c w :
  exists dr dc,
    received (invoke this c w).2 = received w ++ dr
    /\ console (invoke this c w).2 = console w ++ dc
    /\ length dc <= length dr <= 1
    /\ Forall (fun i : Invocation => i.1 = documented_event c /\ is_Some i.2) dr.
Proof.
  destruct (invoke_outcome this c w)
    as [[_ ->] | [(_ & _ & ->) | (sink & m & _ & _ & _ & _ & ->)]].
  - exists [], []. simpl. rewrite !app_nil_r.
    split; [reflexivity|]. split; [reflexivity|]. split; [lia|constructor].
  - exists [], []. simpl. rewrite !app_nil_r.
    split; [reflexivity|]. split; [reflexivity|]. split; [lia|constructor].
  - destruct (sink _).
    + exists [(documented_event c, Some m)], []. simpl. rewrite app_nil_r.
      split; [reflexivity|]. split; [reflexivity|]. split; [lia|].
      constructor; [simpl; eauto|constructor].
    + eexists [(documented_event c, Some m)], [_]. simpl.
      split; [reflexivity|]. split; [reflexivity|]. split; [lia|].
      constructor; [simpl; eauto|constructor].
Qed.

Lemma invoke_all_cons this c cs w :
  invoke_all this (c :: cs) w = invoke_all this cs (invoke this c w).2.
Proof. reflexivity. Qed.

(** X1. A call on a reporter, with a context that is an object, either
    returns normally or ends with the very exception the service threw
    for the invocation it has just received, and then no console line is
    written.  It never fails for want of a service. *)
Theorem call_outcomes this c w :
  inputs_allocated w c = true ->
  (invoke this c w).1 = Normal tt
  \/ exists sink i err,
       service w = Some sink /\ sink i = Some err
       /\ (invoke this c w).1 = Throw err
       /\ received (invoke this c w).2 = received w ++ [i]
       /\ console (invoke this c w).2 = console w.
Proof.
  intros Ha.
  destruct (invoke_outcome this c w)
    as [[Ha' _] | [(_ & _ & ->) | (sink & m & _ & Hs & _ & _ & ->)]].
  - congruence.
  - left. reflexivity.
  - destruct (sink _) as [err|] eqn:Hsink.
    + right. exists sink, (documented_event c, Some m), err. auto.
    + left. reflexivity.
Qed.

(** X2. Whatever the calls, the contexts and the service: the two
    histories only grow (earlier invocations and console lines stay, in
    place), a sequence of calls adds at most one invocation per call and
    never more console lines than invocations, and the service is the one
    it was. *)
Theorem histories_append_only this cs : forall w,
  exists dr dc,
    received (invoke_all this cs w) = received w ++ dr
    /\ console (invoke_all this cs w) = console w ++ dc
    /\ length dc <= length dr <= length cs
    /\ service (invoke_all this cs w) = service w.
Proof.
  induction cs as [|c cs IH]; intros w.
  - exists [], []. simpl. rewrite !app_nil_r. auto.
  - rewrite invoke_all_cons.
    destruct (invoke_step this c w) as (dr1 & dc1 & Hr1 & Hc1 & Hlen1 & _).
    destruct (IH (invoke this c w).2) as (dr & dc & Hr & Hc & Hlen & Hs).
    exists (dr1 ++ dr), (dc1 ++ dc).
    rewrite Hr, Hr1, Hc, Hc1, Hs, !app_assoc, !length_app. simpl.
    repeat split; try lia. apply invoke_frame.
Qed.

(** X3. No public method uses the one-argument form of the dispatch
    routine: every invocation a sequence of calls adds carries a mapping,
    and its event kind is that of one of the calls. *)
Theorem every_forward_carries_properties this cs : forall w,
  exists dr,
    received (invoke_all this cs w) = received w ++ dr
    /\ Forall (fun i : Invocation =>
                 is_Some i.2 /\ exists c, c ∈ cs /\ i.1 = documented_event c) dr.
Proof.
  induction cs as [|c cs IH]; intros w.
  - exists []. simpl. rewrite app_nil_r. auto.
  - rewrite invoke_all_cons.
    destruct (invoke_step this c w) as (dr1 & dc1 & Hr1 & _ & _ & Hall1).
    destruct (IH (invoke this c w).2) as (dr & Hr & Hall).
    exists (dr1 ++ dr). rewrite Hr, Hr1, app_assoc. split; [reflexivity|].
    apply Forall_app. split.
    + eapply Forall_impl; [exact Hall1|]. intros i [Hi Hp]. split; [exact Hp|].
      exists c. split; [left|exact Hi].
    + eapply Forall_impl; [exact Hall|]. intros i (Hp & c' & Hc' & Hi).
      split; [exact Hp|]. exists c'. split; [right; exact Hc'|exact Hi].
Qed.
(** *** Sequences of calls *)

Lemma allocated_after this c w cs :
  Forall (fun c' => inputs_allocated w c' = true) cs ->
  Forall (fun c' => inputs_allocated (invoke this c w).2 c' = true) cs.
Proof.
  intros Hall. eapply Forall_impl; [exact Hall|]. intros c' Hc'. simpl.
  destruct (documented_heap (invoke this c w).2 w c'
              (proj1 (invoke_frame this c w))) as (-> & _).
  exact Hc'.
Qed.

(** X4. With a service that accepts every invocation, a sequence of calls
    is forwarded call by call: the service receives one invocation per
    call, in the order of the calls, each with the event kind and the
    mapping of its call, and the console receives the matching line for
    each, in the same order.  Nothing is merged, dropped or reordered. *)
Theorem working_service_forwards_each_call this cs : forall w sink,
  service w = Some sink -> (forall i, sink i = None) ->
  Forall (fun c => inputs_allocated w c = true) cs ->
  exists ms : list JsObject,
    Forall2 (fun c (m : JsObject) =>
               dom m = documented_keys w c
               /\ forall k, k ∈ documented_keys w c ->
                    m !! k = Some (passed_value w c k)) cs ms
    /\ received (invoke_all this cs w)
       = received w ++ zip_with (fun c m => (documented_event c, Some m)) cs ms
    /\ console (invoke_all this cs w)
       = console w
         ++ zip_with (fun c m =>
                        mkLogLine ("Chat Autocomplete Telemetry event: "
                                   +:+ event_string (documented_event c))
                                  (Some m)) cs ms.
Proof.
  induction cs as [|c cs IH]; intros w sink Hs Hok Ha.
  - exists []. simpl. rewrite !app_nil_r. split; [constructor|auto].
  - apply Forall_cons in Ha as [Hc Hcs].
    rewrite invoke_all_cons.
    destruct (invoke_outcome this c w)
      as [[Hc' _] | [(_ & Hs' & _) | (sink' & m & _ & Hs' & Hdom & Hval & Hrun)]];
      [congruence | congruence |].
    rewrite Hs in Hs'. injection Hs' as <-. rewrite Hok in Hrun.
    destruct (IH (invoke this c w).2 sink) as (ms & Hms & Hr & Hl).
    + rewrite (proj2 (invoke_frame this c w)). exact Hs.
    + exact Hok.
    + apply allocated_after, Hcs.
    + exists (m :: ms). split; [|split].
      * constructor; [split; assumption|].
        eapply Forall2_impl; [exact Hms|]. intros c' m' [Hd Hv].
        destruct (documented_heap (invoke this c w).2 w c'
                    (proj1 (invoke_frame this c w))) as (_ & Hk & Hp).
        rewrite <- Hk. split; [exact Hd|].
        intros k Hk'. rewrite <- Hp. apply Hv, Hk'.
      * rewrite Hr, Hrun. simpl. rewrite <- app_assoc. reflexivity.
      * rewrite Hl, Hrun. simpl. rewrite <- app_assoc. reflexivity.
Qed.

(** X5. Without a service, a sequence of calls leaves the world exactly as
    it was: the events are dropped, not kept for a service to come. *)
Theorem no_service_drops_every_call this cs : forall w,
  service w = None ->
  Forall (fun c => inputs_allocated w c = true) cs ->
  invoke_all this cs w = w.
Proof.
  induction cs as [|c cs IH]; intros w Hs Ha; [reflexivity|].
  apply Forall_cons in Ha as [Hc Hcs].
  rewrite invoke_all_cons, (invoke_without_service this c w Hs Hc). simpl.
  apply IH; assumption.
Qed.

(** *** What the forwarded mapping holds *)

(** X6. The context flags hasVisibleCodeContext and hasClipboardContext
    reach the service through [captureSuggestionRequested] only.  The
    events returned, filtered, accepted and dismissed never carry them,
    whatever the context holds; the two request events carry one exactly
    when the caller's record does. *)
Theorem flags_only_when_requested this c w e (m : JsObject) k :
  forwards this c w e m -> k ∈ flag_keys ->
  m !! k =
    match c with
    | SuggestionRequested context _ => Some (read (object_at w context) k)
    | LlmRequestCompleted properties _
    | LlmRequestFailed properties _ => object_at w properties !! k
    | SuggestionReturned _ _ | SuggestionFiltered _ _
    | SuggestionAccepted _ | SuggestionDismissed _ => None
    end.
Proof.
  intros Hf Hk.
  destruct (forwards_inv this c w e m Hf) as (_ & _ & _ & _ & _ & Hdom & Hval).
  assert (Hnot : k ∉ context_keys)
    by (unfold flag_keys, context_keys in *; set_unfold;
        intros ?; destruct_or?; subst; discriminate).
  destruct c; simpl in *.
  - rewrite Hval by (unfold flag_keys in Hk; set_solver).
    case_decide; [subst; unfold flag_keys in Hk; set_unfold;
                  destruct_or?; discriminate | reflexivity].
  - destruct (object_at w properties !! k) as [v|] eqn:Hv.
    + rewrite Hval by (apply elem_of_union_l, elem_of_dom; eauto).
      case_decide; [contradiction|]. unfold read. rewrite Hv. reflexivity.
    + apply not_elem_of_dom. rewrite Hdom. apply not_elem_of_dom in Hv. set_solver.
  - destruct (object_at w properties !! k) as [v|] eqn:Hv.
    + rewrite Hval by (apply elem_of_union_l, elem_of_dom; eauto).
      case_decide; [contradiction|]. unfold read. rewrite Hv. reflexivity.
    + apply not_elem_of_dom. rewrite Hdom. apply not_elem_of_dom in Hv. set_solver.
  - apply not_elem_of_dom. rewrite Hdom. unfold flag_keys in Hk.
    set_unfold. intros ?; destruct_or?; subst; discriminate.
  - apply not_elem_of_dom. rewrite Hdom. unfold flag_keys in Hk.
    set_unfold. intros ?; destruct_or?; subst; discriminate.
  - apply not_elem_of_dom. rewrite Hdom. unfold flag_keys in Hk.
    set_unfold. intros ?; destruct_or?; subst; discriminate.
  - apply not_elem_of_dom. rewrite Hdom. unfold flag_keys in Hk.
    set_unfold. intros ?; destruct_or?; subst; discriminate.
Qed.
(** X7. What a call forwards depends on its context only through the
    fields the method reads: in a store where the context agrees on those
    fields (and the record, if any, is the same), the same call forwards
    the same event with the same mapping.  Fields the method does not
    read, declared or not, never reach the service. *)
Theorem forwarded_depends_on_fields_read this c w1 w2 e (m : JsObject) sink2 :
  forwards this c w1 e m ->
  service w2 = Some sink2 -> inputs_allocated w2 c = true ->
  (forall context, context_of c = Some context ->
     forall k, k ∈ context_fields c ->
       read (object_at w1 context) k = read (object_at w2 context) k) ->
  (forall properties, properties_of c = Some properties ->
     object_at w1 properties = object_at w2 properties) ->
  forwards this c w2 e m.
Proof.
  intros Hf Hs2 Ha2 Hctx Hprops.
  destruct (forwards_inv this c w1 e m Hf) as (_ & _ & _ & _ & -> & Hdom & Hval).
  destruct (invoke_forwards this c w2 sink2 Hs2 Ha2) as (m2 & _ & Hf2 & Hdom2 & Hval2).
  assert (Hkeys : documented_keys w2 c = documented_keys w1 c).
  { destruct c; simpl; try reflexivity; rewrite (Hprops _ eq_refl); reflexivity. }
  assert (Hpass : forall k, k ∈ documented_keys w1 c ->
                    passed_value w2 c k = passed_value w1 c k).
  { intros k Hk. destruct c; simpl in *; try reflexivity;
      try rewrite <- (Hprops _ eq_refl);
      repeat case_decide; try reflexivity;
      symmetry; apply (Hctx _ eq_refl); unfold context_keys, flag_keys in *;
      set_unfold; tauto. }
  assert (m = m2) as <-; [|exact Hf2].
  apply (mapping_unique m m2 (documented_keys w1 c) (passed_value w1 c));
    try assumption; [congruence|].
  intros k Hk. rewrite <- (Hpass k Hk). apply Hval2. rewrite Hkeys. exact Hk.
Qed.

(** X8. The event kind tells the operation: two calls that forward the
    same event kind are calls of the same method. *)
Theorem event_kind_identifies_operation this c1 c2 w1 w2 e (m1 m2 : JsObject) :
  forwards this c1 w1 e m1 -> forwards this c2 w2 e m2 ->
  same_operation c1 c2 = true.
Proof.
  intros Hf1 Hf2.
  destruct (forwards_inv this c1 w1 e m1 Hf1) as (_ & _ & _ & _ & He1 & _).
  destruct (forwards_inv this c2 w2 e m2 Hf2) as (_ & _ & _ & _ & He2 & _).
  rewrite He1 in He2. destruct c1, c2; simpl in *; try discriminate; reflexivity.
Qed.

Lemma FilterReason_string_inj r1 r2 :
  FilterReason_string r1 = FilterReason_string r2 -> r1 = r2.
Proof. destruct r1, r2; simpl; intros; try discriminate; reflexivity. Qed.

Lemma DismissReason_string_inj r1 r2 :
  DismissReason_string r1 = DismissReason_string r2 -> r1 = r2.
Proof. destruct r1, r2; simpl; intros; try discriminate; reflexivity. Qed.

(** X9. The forwarded record keeps the explicit argument apart: two calls
    that forward the same event kind with the same mapping were made with
    the same length (requested, returned, accepted) or the same reason
    (filtered, dismissed). *)
Theorem forwarded_mapping_determines_argument this c1 c2 w1 w2 e (m : JsObject) :
  forwards this c1 w1 e m -> forwards this c2 w2 e m ->
  same_arguments c1 c2.
Proof.
  intros Hf1 Hf2.
  destruct (forwards_inv this c1 w1 e m Hf1) as (_ & _ & _ & _ & He1 & _ & Hv1).
  destruct (forwards_inv this c2 w2 e m Hf2) as (_ & _ & _ & _ & He2 & _ & Hv2).
  rewrite He1 in He2.
  destruct c1, c2; simpl in *; try discriminate; try exact I.
  - specialize (Hv1 "userTextLength" ltac:(set_solver)).
    specialize (Hv2 "userTextLength" ltac:(set_solver)).
    simpl in *. congruence.
  - specialize (Hv1 "suggestionLength" ltac:(set_solver)).
    specialize (Hv2 "suggestionLength" ltac:(set_solver)).
    simpl in *. congruence.
  - specialize (Hv1 "reason" ltac:(set_solver)).
    specialize (Hv2 "reason" ltac:(set_solver)).
    simpl in *. apply FilterReason_string_inj. congruence.
  - specialize (Hv1 "suggestionLength" ltac:(set_solver)).
    specialize (Hv2 "suggestionLength" ltac:(set_solver)).
    simpl in *. congruence.
  - specialize (Hv1 "dismissReason" ltac:(set_solver)).
    specialize (Hv2 "dismissReason" ltac:(set_solver)).
    simpl in *. apply DismissReason_string_inj. congruence.
Qed.

(** *** Types of the forwarded values *)

Lemma declared_type_keys v :
  declared_type "usedFim" v = is_boolean v
  /\ declared_type "hasVisibleCodeContext" v = is_boolean v
  /\ declared_type "hasClipboardContext" v = is_boolean v
  /\ declared_type "modelId" v = is_undefined v || is_string v
  /\ declared_type "provider" v = is_undefined v || is_string v
  /\ declared_type "latencyMs" v = is_number v
  /\ declared_type "userTextLength" v = is_number v
  /\ declared_type "suggestionLength" v = is_number v
  /\ declared_type "inputTokens" v = is_undefined v || is_number v
  /\ declared_type "outputTokens" v = is_undefined v || is_number v
  /\ declared_type "error" v = is_string v
  /\ declared_type "reason" v = is_string v
  /\ declared_type "dismissReason" v = is_string v.
Proof. repeat split; reflexivity. Qed.

Lemma required_read T (o : JsObject) k :
  required T o k = true -> T (read o k) = true.
Proof.
  unfold required, read. destruct (o !! k); [auto | discriminate].
Qed.

Lemma optional_read T (o : JsObject) k :
  optional T o k = true -> is_undefined (read o k) || T (read o k) = true.
Proof.
  unfold optional, read. destruct (o !! k); [auto | reflexivity].
Qed.

Lemma context_declared (o : JsObject) k :
  ChatAutocompleteContext o = true -> k ∈ context_keys ∪ flag_keys ->
  declared_type k (read o k) = true.
Proof.
  unfold ChatAutocompleteContext, context_keys, flag_keys. intros Ht Hk.
  split_andb. set_unfold in Hk. destruct_or!; subst k;
    first [ apply optional_read; assumption | apply required_read; assumption ].
Qed.

Lemma completed_declared (o : JsObject) k :
  LlmRequestCompletedProperties o = true -> k ∈ dom o ->
  declared_type k (read o k) = true.
Proof.
  unfold LlmRequestCompletedProperties. intros Ht Hk. split_andb.
  assert (Hk' : k ∈ ({[ "latencyMs"; "inputTokens"; "outputTokens" ]} : gset string))
    by set_solver.
  set_unfold in Hk'. destruct_or!; subst k;
    first [ apply optional_read; assumption | apply required_read; assumption ].
Qed.

Lemma failed_declared (o : JsObject) k :
  LlmRequestFailedProperties o = true -> k ∈ dom o ->
  declared_type k (read o k) = true.
Proof.
  unfold LlmRequestFailedProperties. intros Ht Hk. split_andb.
  assert (Hk' : k ∈ ({[ "latencyMs"; "error" ]} : gset string)) by set_solver.
  set_unfold in Hk'. destruct_or!; subst k; apply required_read; assumption.
Qed.

(** X10. Typed inputs give typed records: whatever the operation, each
    key of the forwarded mapping holds a value of the type the source
    declares for that name (usedFim and the flags booleans, modelId and
    provider strings or undefined, latencyMs and the lengths numbers, the
    token counts numbers or undefined, error and the reasons strings). *)
Theorem forwarded_values_have_declared_types this c w e (m : JsObject) k v :
  inputs_typed w c = true -> forwards this c w e m ->
  m !! k = Some v -> declared_type k v = true.
Proof.
  intros Ht Hf Hv.
  destruct (forwards_inv this c w e m Hf) as (_ & _ & _ & _ & _ & Hdom & Hval).
  assert (Hk : k ∈ documented_keys w c)
    by (rewrite <- Hdom; apply elem_of_dom; eauto).
  rewrite (Hval k Hk) in Hv. injection Hv as <-.
  unfold inputs_typed in Ht.
  destruct c; simpl in *; split_andb;
    repeat match goal with
           | H : has_type w _ _ = true |- _ =>
               apply has_type_inv in H as (? & ? & ?)
           end;
    unfold object_at in *; simplify_option_eq; simpl in *;
    repeat case_decide; subst; try reflexivity;
    try (apply context_declared;
         [assumption | unfold context_keys, flag_keys in *; set_unfold; tauto]).
  - apply completed_declared; [assumption | set_unfold; tauto].
  - apply failed_declared; [assumption | set_unfold; tauto].
  - apply elem_of_singleton in Hk as ->. reflexivity.
  - apply elem_of_singleton in Hk as ->. reflexivity.
Qed.
(** *** One call after others *)

(** X11. Calls do not interfere: after any sequence of earlier calls,
    whether they returned or threw, a call forwards exactly what it would
    have forwarded without them, the same event kind with the same
    mapping.  The reporter carries nothing from one call to the next. *)
Theorem calls_do_not_interfere this cs c w e (m : JsObject) :
  forwards this c (invoke_all this cs w) e m <-> forwards this c w e m.
Proof.
  destruct (invoke_all_frame this cs w) as [Hh Hs].
  split.
  - apply (invoke_deterministic this c (invoke_all this cs w) w Hh Hs).
  - apply (invoke_deterministic this c w (invoke_all this cs w)
             (eq_sym Hh) (eq_sym Hs)).
Qed.

End Reporter.





(* ===================================================================== *)
(** ** The scenarios of the test suite *)
(* ===================================================================== *)

Example requested_42 :
  invoke member_name 1 (SuggestionRequested 2 42) world_with_service
  = (Normal tt,
     mkWorld test_heap (Some mock_sink)
       [ (CHAT_AUTOCOMPLETE_SUGGESTION_REQUESTED,
          Some (object_literal ∅
            [ ("modelId", JString "test-model");
              ("provider", JString "test-provider");
              ("usedFim", JBool true);
              ("hasVisibleCodeContext", JBool true);
              ("hasClipboardContext", JBool false);
              ("userTextLength", JNumber 42) ])) ]
       [ mkLogLine
           "Chat Autocomplete Telemetry event: CHAT_AUTOCOMPLETE_SUGGESTION_REQUESTED"
           (Some (object_literal ∅
            [ ("modelId", JString "test-model");
              ("provider", JString "test-provider");
              ("usedFim", JBool true);
              ("hasVisibleCodeContext", JBool true);
              ("hasClipboardContext", JBool false);
              ("userTextLength", JNumber 42) ])) ]).
Proof. reflexivity. Qed.

Example filtered_model_not_loaded :
  forwards member_name 1 (SuggestionFiltered model_not_loaded 2) world_with_service
    CHAT_AUTOCOMPLETE_SUGGESTION_FILTERED
    (object_literal ∅
       [ ("reason", JString "model_not_loaded");
         ("modelId", JString "test-model");
         ("provider", JString "test-provider");
         ("usedFim", JBool true) ]).
Proof. reflexivity. Qed.

Example completed_with_metrics :
  forwards member_name 1 (LlmRequestCompleted 4 2) world_with_service
    CHAT_AUTOCOMPLETE_LLM_REQUEST_COMPLETED
    (object_literal ∅
       [ ("latencyMs", JNumber 150);
         ("inputTokens", JNumber 100);
         ("outputTokens", JNumber 50);
         ("modelId", JString "test-model");
         ("provider", JString "test-provider");
         ("usedFim", JBool true) ]).
Proof. reflexivity. Qed.

Example requested_without_service :
  invoke member_name 1 (SuggestionRequested 2 10) world_without_service
  = (Normal tt, world_without_service).
Proof. reflexivity. Qed.

(* ===================================================================== *)
(** ** Where the code departs from a claim *)
(* ===================================================================== *)

(** C3, as stated, fails: with a service whose [captureEvent] throws, the
    dispatch routine has invoked it and the exception leaves the routine;
    no console line is written. *)
Lemma captureEvent_propagates_sink_failure :
  captureEvent member_name 1 CHAT_AUTOCOMPLETE_SUGGESTION_DISMISSED
    (Some {[ "dismissReason" := JString "timeout" ]}) world_with_failing_service
  = (Throw (JString "sink failure"),
     mkWorld test_heap (Some failing_sink)
       [ (CHAT_AUTOCOMPLETE_SUGGESTION_DISMISSED,
          Some {[ "dismissReason" := JString "timeout" ]}) ]
       [])
  /\ ~ (forall event_string this e p w,
          exists r, (captureEvent event_string this e p w).1 = Normal r).
Proof.
  assert (Hrun : captureEvent member_name 1 CHAT_AUTOCOMPLETE_SUGGESTION_DISMISSED
              (Some {[ "dismissReason" := JString "timeout" ]})
              world_with_failing_service
            = (Throw (JString "sink failure"),
               mkWorld test_heap (Some failing_sink)
                 [ (CHAT_AUTOCOMPLETE_SUGGESTION_DISMISSED,
                    Some {[ "dismissReason" := JString "timeout" ]}) ]
                 [])) by reflexivity.
  split; [exact Hrun|].
  intros Hnever.
  destruct (Hnever member_name 1%positive CHAT_AUTOCOMPLETE_SUGGESTION_DISMISSED
              (Some {[ "dismissReason" := JString "timeout" ]})
              world_with_failing_service) as [r Hr].
  rewrite Hrun in Hr. discriminate.
Qed.


(* ===================================================================== *)
(** ** The theorems at the inputs of the test suite *)
(* ===================================================================== *)

Lemma capture_forwards_documented_event_witness :
  service world_with_service = Some mock_sink
  /\ inputs_allocated world_with_service (LlmRequestFailed 6 2) = true
  /\ exists m : JsObject,
       received (invoke member_name 1 (LlmRequestFailed 6 2) world_with_service).2
       = received world_with_service
         ++ [(documented_event (LlmRequestFailed 6 2), Some m)]
       /\ dom m = documented_keys world_with_service (LlmRequestFailed 6 2)
       /\ forall k, k ∈ documented_keys world_with_service (LlmRequestFailed 6 2) ->
            m !! k = Some (passed_value world_with_service (LlmRequestFailed 6 2) k).
Proof.
  split; [reflexivity|]. split; [reflexivity|].
  apply (capture_forwards_documented_event member_name 1 (LlmRequestFailed 6 2)
           world_with_service mock_sink); reflexivity.
Defined.

Lemma capture_without_service_is_noop_witness :
  service world_without_service = None
  /\ inputs_allocated world_without_service (SuggestionRequested 2 10) = true
  /\ invoke member_name 1 (SuggestionRequested 2 10) world_without_service
     = (Normal tt, world_without_service).
Proof.
  split; [reflexivity|]. split; [reflexivity|].
  apply (capture_without_service_is_noop member_name 1 (SuggestionRequested 2 10)
           world_without_service); reflexivity.
Defined.

Lemma completed_latency_only_keys_witness :
  service world_with_service = Some mock_sink
  /\ heap world_with_service !! 5%positive = Some {[ "latencyMs" := JNumber 150 ]}
  /\ is_Some (heap world_with_service !! 2%positive)
  /\ exists m : JsObject,
       forwards member_name 1 (LlmRequestCompleted 5 2) world_with_service
         CHAT_AUTOCOMPLETE_LLM_REQUEST_COMPLETED m
       /\ dom m = {[ "latencyMs"; "modelId"; "provider"; "usedFim" ]}
       /\ m !! "inputTokens" = None
       /\ m !! "outputTokens" = None.
Proof.
  split; [reflexivity|]. split; [reflexivity|].
  split; [exists mockContext; reflexivity|].
  apply (completed_latency_only_keys member_name 1 world_with_service mock_sink 5 2 150);
    [reflexivity | reflexivity | exists mockContext; reflexivity].
Defined.

Lemma undefined_context_fields_pass_through_witness :
  service world_with_service = Some mock_sink
  /\ context_of (SuggestionReturned 3 25) = Some 3%positive
  /\ heap world_with_service !! 3%positive = Some minimalContext
  /\ ("provider" = "modelId" \/ "provider" = "provider")
  /\ (minimalContext !! "provider" = None
      \/ minimalContext !! "provider" = Some JUndefined)
  /\ exists m : JsObject,
       forwards member_name 1 (SuggestionReturned 3 25) world_with_service
         (documented_event (SuggestionReturned 3 25)) m
       /\ m !! "provider" = Some JUndefined.
Proof.
  split; [reflexivity|]. split; [reflexivity|]. split; [reflexivity|].
  split; [right; reflexivity|]. split; [left; reflexivity|].
  apply (undefined_context_fields_pass_through member_name 1 (SuggestionReturned 3 25)
           world_with_service mock_sink 3 minimalContext "provider");
    [reflexivity | reflexivity | reflexivity | right; reflexivity | left; reflexivity].
Defined.

Lemma terminal_events_omit_context_witness :
  service world_with_service = Some mock_sink
  /\ forwards member_name 1 (SuggestionDismissed timeout) world_with_service
       CHAT_AUTOCOMPLETE_SUGGESTION_DISMISSED
       {[ "dismissReason" := JString "timeout" ]}.
Proof.
  split; [reflexivity|].
  apply (terminal_events_omit_context member_name 1 world_with_service mock_sink).
  reflexivity.
Defined.


Lemma one_log_line_per_forward_witness :
  service world_with_service = Some mock_sink
  /\ forwards member_name 1 (SuggestionAccepted 30) world_with_service
       CHAT_AUTOCOMPLETE_SUGGESTION_ACCEPTED {[ "suggestionLength" := JNumber 30 ]}
  /\ mock_sink (CHAT_AUTOCOMPLETE_SUGGESTION_ACCEPTED,
                Some {[ "suggestionLength" := JNumber 30 ]}) = None
  /\ console (invoke member_name 1 (SuggestionAccepted 30) world_with_service).2
     = console world_with_service
       ++ [mkLogLine
             ("Chat Autocomplete Telemetry event: "
              +:+ member_name CHAT_AUTOCOMPLETE_SUGGESTION_ACCEPTED)
             (Some {[ "suggestionLength" := JNumber 30 ]})].
Proof.
  split; [reflexivity|]. split; [reflexivity|]. split; [reflexivity|].
  apply (proj1 (proj2 (one_log_line_per_forward member_name 1 (SuggestionAccepted 30)
                         world_with_service)) mock_sink);
    reflexivity.
Defined.

Lemma calls_only_read_witness :
  constructor (mkWorld ∅ None [] [])
  = (Normal 1%positive, mkWorld {[ 1%positive := ∅ ]} None [] [])
  /\ heap (invoke_all member_name 1 [SuggestionAccepted 30; SuggestionDismissed escape]
             (mkWorld {[ 1%positive := ∅ ]} None [] [])) !! 1%positive
     = Some ∅
  /\ heap (invoke_all member_name 1
             [SuggestionRequested 2 42; LlmRequestCompleted 4 2; SuggestionAccepted 30]
             world_with_service) !! 2%positive
     = Some mockContext
  /\ heap world_with_service = heap (mkWorld test_heap (Some mock_sink) [] earlier_lines)
  /\ service world_with_service
     = service (mkWorld test_heap (Some mock_sink) [] earlier_lines)
  /\ (invoke member_name 1 (SuggestionReturned 2 25) world_with_service).1
     = (invoke member_name 1 (SuggestionReturned 2 25)
          (mkWorld test_heap (Some mock_sink) [] earlier_lines)).1.
Proof.
  split; [reflexivity|]. split.
  - apply (proj1 (proj2 (proj2 (calls_only_read member_name)))
             [SuggestionAccepted 30; SuggestionDismissed escape]
             (mkWorld ∅ None [] []) 1%positive
             (mkWorld {[ 1%positive := ∅ ]} None [] [])).
    reflexivity.
  - split.
    + rewrite (proj1 (proj2 (calls_only_read member_name)) 1%positive
                 [SuggestionRequested 2 42; LlmRequestCompleted 4 2; SuggestionAccepted 30]
                 world_with_service).
      reflexivity.
    + split; [reflexivity|]. split; [reflexivity|].
      apply (proj2 (proj2 (proj2 (calls_only_read member_name))) 1%positive
               (SuggestionReturned 2 25) world_with_service
               (mkWorld test_heap (Some mock_sink) [] earlier_lines));
        reflexivity.
Defined.

Lemma context_overrides_properties_witness :
  service world_with_service = Some mock_sink
  /\ heap world_with_service !! 7%positive = Some overlapping
  /\ heap world_with_service !! 2%positive = Some mockContext
  /\ exists m : JsObject,
       forwards member_name 1 (LlmRequestFailed 7 2) world_with_service
         (documented_event (LlmRequestFailed 7 2)) m
       /\ (forall k, k ∈ context_keys -> m !! k = Some (read mockContext k))
       /\ (forall k, k ∉ context_keys -> m !! k = overlapping !! k).
Proof.
  split; [reflexivity|]. split; [reflexivity|]. split; [reflexivity|].
  apply (context_overrides_properties member_name 1 world_with_service mock_sink
           7 2 overlapping mockContext (LlmRequestFailed 7 2));
    [reflexivity | reflexivity | reflexivity | right; reflexivity].
Defined.

(* ===================================================================== *)
(** ** The further properties at concrete inputs *)
(* ===================================================================== *)

Lemma call_outcomes_witness :
  inputs_allocated world_with_picky_service (LlmRequestFailed 6 2) = true
  /\ ((invoke member_name 1 (LlmRequestFailed 6 2) world_with_picky_service).1
      = Normal tt
      \/ exists sink i err,
           service world_with_picky_service = Some sink /\ sink i = Some err
           /\ (invoke member_name 1 (LlmRequestFailed 6 2)
                 world_with_picky_service).1 = Throw err
           /\ received (invoke member_name 1 (LlmRequestFailed 6 2)
                          world_with_picky_service).2
              = received world_with_picky_service ++ [i]
           /\ console (invoke member_name 1 (LlmRequestFailed 6 2)
                         world_with_picky_service).2
              = console world_with_picky_service).
Proof.
  split; [reflexivity|].
  apply (call_outcomes member_name 1 (LlmRequestFailed 6 2)
           world_with_picky_service).
  reflexivity.
Defined.

Lemma working_service_forwards_each_call_witness :
  service world_with_service = Some mock_sink
  /\ (forall i, mock_sink i = None)
  /\ Forall (fun c => inputs_allocated world_with_service c = true)
       [SuggestionRequested 2 42; LlmRequestCompleted 4 2; SuggestionAccepted 30]
  /\ exists ms : list JsObject,
       Forall2 (fun c (m : JsObject) =>
                  dom m = documented_keys world_with_service c
                  /\ forall k, k ∈ documented_keys world_with_service c ->
                       m !! k = Some (passed_value world_with_service c k))
         [SuggestionRequested 2 42; LlmRequestCompleted 4 2; SuggestionAccepted 30] ms
       /\ received
            (invoke_all member_name 1
               [SuggestionRequested 2 42; LlmRequestCompleted 4 2; SuggestionAccepted 30]
               world_with_service)
          = received world_with_service
            ++ zip_with (fun c m => (documented_event c, Some m))
                 [SuggestionRequested 2 42; LlmRequestCompleted 4 2;
                  SuggestionAccepted 30] ms
       /\ console
            (invoke_all member_name 1
               [SuggestionRequested 2 42; LlmRequestCompleted 4 2; SuggestionAccepted 30]
               world_with_service)
          = console world_with_service
            ++ zip_with (fun c m =>
                           mkLogLine ("Chat Autocomplete Telemetry event: "
                                      +:+ member_name (documented_event c))
                                     (Some m))
                 [SuggestionRequested 2 42; LlmRequestCompleted 4 2;
                  SuggestionAccepted 30] ms.
Proof.
  assert (Hall : Forall (fun c => inputs_allocated world_with_service c = true)
                   [SuggestionRequested 2 42; LlmRequestCompleted 4 2;
                    SuggestionAccepted 30])
    by (repeat constructor).
  split; [reflexivity|]. split; [reflexivity|]. split; [exact Hall|].
  apply (working_service_forwards_each_call member_name 1
           [SuggestionRequested 2 42; LlmRequestCompleted 4 2; SuggestionAccepted 30]
           world_with_service mock_sink);
    [reflexivity | reflexivity | exact Hall].
Defined.

Lemma no_service_drops_every_call_witness :
  service world_without_service = None
  /\ Forall (fun c => inputs_allocated world_without_service c = true)
       [SuggestionRequested 2 10; SuggestionFiltered too_short 3;
        SuggestionDismissed clicked_away]
  /\ invoke_all member_name 1
       [SuggestionRequested 2 10; SuggestionFiltered too_short 3;
        SuggestionDismissed clicked_away] world_without_service
     = world_without_service.
Proof.
  assert (Hall : Forall (fun c => inputs_allocated world_without_service c = true)
                   [SuggestionRequested 2 10; SuggestionFiltered too_short 3;
                    SuggestionDismissed clicked_away])
    by (repeat constructor).
  split; [reflexivity|]. split; [exact Hall|].
  apply (no_service_drops_every_call member_name 1
           [SuggestionRequested 2 10; SuggestionFiltered too_short 3;
            SuggestionDismissed clicked_away] world_without_service);
    [reflexivity | exact Hall].
Defined.

Lemma flags_only_when_requested_witness :
  forwards member_name 1 (SuggestionFiltered no_credentials 2) world_with_service
    CHAT_AUTOCOMPLETE_SUGGESTION_FILTERED
    (object_literal ∅
       [ ("reason", JString "no_credentials");
         ("modelId", JString "test-model");
         ("provider", JString "test-provider");
         ("usedFim", JBool true) ])
  /\ "hasVisibleCodeContext" ∈ flag_keys
  /\ object_literal ∅
       [ ("reason", JString "no_credentials");
         ("modelId", JString "test-model");
         ("provider", JString "test-provider");
         ("usedFim", JBool true) ] !! "hasVisibleCodeContext" = None.
Proof.
  assert (Hk : "hasVisibleCodeContext" ∈ flag_keys)
    by (unfold flag_keys; apply elem_of_union_l, elem_of_singleton; reflexivity).
  split; [reflexivity|]. split; [exact Hk|].
  apply (flags_only_when_requested member_name 1 (SuggestionFiltered no_credentials 2)
           world_with_service CHAT_AUTOCOMPLETE_SUGGESTION_FILTERED _
           "hasVisibleCodeContext");
    [reflexivity | exact Hk].
Defined.

Lemma forwarded_depends_on_fields_read_witness :
  forwards member_name 1 (SuggestionReturned 2 25) world_with_service
    CHAT_AUTOCOMPLETE_SUGGESTION_RETURNED
    (object_literal ∅
       [ ("modelId", JString "test-model");
         ("provider", JString "test-provider");
         ("usedFim", JBool true);
         ("suggestionLength", JNumber 25) ])
  /\ service world_with_extended_context = Some mock_sink
  /\ inputs_allocated world_with_extended_context (SuggestionReturned 2 25) = true
  /\ (forall k, k ∈ context_fields (SuggestionReturned 2 25) ->
        read (object_at world_with_service 2) k
        = read (object_at world_with_extended_context 2) k)
  /\ forwards member_name 1 (SuggestionReturned 2 25) world_with_extended_context
       CHAT_AUTOCOMPLETE_SUGGESTION_RETURNED
       (object_literal ∅
          [ ("modelId", JString "test-model");
            ("provider", JString "test-provider");
            ("usedFim", JBool true);
            ("suggestionLength", JNumber 25) ]).
Proof.
  assert (Hread : forall k, k ∈ context_fields (SuggestionReturned 2 25) ->
                    read (object_at world_with_service 2) k
                    = read (object_at world_with_extended_context 2) k).
  { intros k Hk. unfold context_fields, context_keys in Hk.
    apply elem_of_union in Hk as [Hk | Hk];
      [apply elem_of_union in Hk as [Hk | Hk] |];
      apply elem_of_singleton in Hk; subst k; reflexivity. }
  split; [reflexivity|]. split; [reflexivity|]. split; [reflexivity|].
  split; [exact Hread|].
  apply (forwarded_depends_on_fields_read member_name 1 (SuggestionReturned 2 25)
           world_with_service world_with_extended_context
           CHAT_AUTOCOMPLETE_SUGGESTION_RETURNED _ mock_sink);
    [reflexivity | reflexivity | reflexivity | | ].
  - intros context Hc. injection Hc as <-. exact Hread.
  - intros properties Hp. discriminate Hp.
Defined.

Lemma event_kind_identifies_operation_witness :
  forwards member_name 1 (SuggestionAccepted 30) world_with_service
    CHAT_AUTOCOMPLETE_SUGGESTION_ACCEPTED {[ "suggestionLength" := JNumber 30 ]}
  /\ forwards member_name 1 (SuggestionAccepted 12) world_with_extended_context
       CHAT_AUTOCOMPLETE_SUGGESTION_ACCEPTED {[ "suggestionLength" := JNumber 12 ]}
  /\ same_operation (SuggestionAccepted 30) (SuggestionAccepted 12) = true.
Proof.
  split; [reflexivity|]. split; [reflexivity|].
  apply (event_kind_identifies_operation member_name 1
           (SuggestionAccepted 30) (SuggestionAccepted 12)
           world_with_service world_with_extended_context
           CHAT_AUTOCOMPLETE_SUGGESTION_ACCEPTED
           {[ "suggestionLength" := JNumber 30 ]}
           {[ "suggestionLength" := JNumber 12 ]});
    reflexivity.
Defined.

Lemma forwarded_mapping_determines_argument_witness :
  forwards member_name 1 (SuggestionFiltered too_short 2) world_with_service
    CHAT_AUTOCOMPLETE_SUGGESTION_FILTERED
    (object_literal ∅
       [ ("reason", JString "too_short");
         ("modelId", JString "test-model");
         ("provider", JString "test-provider");
         ("usedFim", JBool true) ])
  /\ forwards member_name 1 (SuggestionFiltered too_short 2)
       world_with_extended_context
       CHAT_AUTOCOMPLETE_SUGGESTION_FILTERED
       (object_literal ∅
          [ ("reason", JString "too_short");
            ("modelId", JString "test-model");
            ("provider", JString "test-provider");
            ("usedFim", JBool true) ])
  /\ same_arguments (SuggestionFiltered too_short 2) (SuggestionFiltered too_short 2).
Proof.
  split; [reflexivity|]. split; [reflexivity|].
  apply (forwarded_mapping_determines_argument member_name 1
           (SuggestionFiltered too_short 2) (SuggestionFiltered too_short 2)
           world_with_service world_with_extended_context
           CHAT_AUTOCOMPLETE_SUGGESTION_FILTERED
           (object_literal ∅
              [ ("reason", JString "too_short");
                ("modelId", JString "test-model");
                ("provider", JString "test-provider");
                ("usedFim", JBool true) ]));
    reflexivity.
Defined.

Lemma forwarded_values_have_declared_types_witness :
  inputs_typed world_with_service (LlmRequestCompleted 4 2) = true
  /\ forwards member_name 1 (LlmRequestCompleted 4 2) world_with_service
       CHAT_AUTOCOMPLETE_LLM_REQUEST_COMPLETED
       (object_literal metrics
          [ ("modelId", JString "test-model");
            ("provider", JString "test-provider");
            ("usedFim", JBool true) ])
  /\ object_literal metrics
       [ ("modelId", JString "test-model");
         ("provider", JString "test-provider");
         ("usedFim", JBool true) ] !! "inputTokens" = Some (JNumber 100)
  /\ declared_type "inputTokens" (JNumber 100) = true.
Proof.
  split; [reflexivity|]. split; [reflexivity|]. split; [reflexivity|].
  apply (forwarded_values_have_declared_types member_name 1 (LlmRequestCompleted 4 2)
           world_with_service CHAT_AUTOCOMPLETE_LLM_REQUEST_COMPLETED
           (object_literal metrics
              [ ("modelId", JString "test-model");
                ("provider", JString "test-provider");
                ("usedFim", JBool true) ])
           "inputTokens" (JNumber 100));
    reflexivity.
Defined.
